(** * Download as EML: the dual-mode retrieval routine of the IMAP node

    A shallow embedding of [downloadOperation.executeImapAction], in its
    dual-mode version (single UID, or search-driven bulk fetch) and in its
    original single-UID version (nodes/Imap/operations/email/functions/
    EmailDownload.ts), together with the properties the design description
    states about it.

    - A JavaScript object used as a map ([IDataObject], [IBinaryKeyData]) is
      a [gmap string _].
    - An [async] function that either resolves or rejects is a computation
      in [Completion]: [Return v] or [Throw e].
    - The async generator [client.fetch] is a finite [FetchStream]: it yields
      messages and then either ends or throws.
    - The host ([IExecuteFunctions]) and the IMAP client ([ImapFlow]) are
      records of the answers they give to the calls the routine makes.
    - What the routine imports and does not define is a class: [Externals]
      for the host's and Node's types, [Utils] for the helpers of utils/. *)

From Stdlib Require Import NArith Ascii.
From stdpp Require Import base option list strings gmap pretty.

Open Scope string_scope.
Open Scope list_scope.

(** ** Errors and completions *)

(** What a [throw] carries: [Error] is [new Error(message)], [TypeError] the
    runtime's error on a property read of [undefined], [ExternalError]
    whatever a collaborator rejects with. *)
Inductive JsError : Type :=
| Error (message : string)
| TypeError (message : string)
| ExternalError (name message : string).

Inductive Completion (A : Type) : Type :=
| Return (a : A)
| Throw (e : JsError).
Arguments Return {A} a.
Arguments Throw {A} e.

#[global] Instance Completion_ret : MRet Completion := @Return.
#[global] Instance Completion_bind : MBind Completion := λ A B f c,
  match c with
  | Return a => f a
  | Throw e => Throw e
  end.

(** The two messages with which the routine reports that nothing matched. *)
Definition NoEmailWithUid : JsError :=
  Error "No email found with the specified UID".
Definition NoEmailsMatching : JsError :=
  Error "No emails found matching the search criteria.".

Definition NotFoundError (e : JsError) : Prop :=
  e = NoEmailWithUid ∨ e = NoEmailsMatching.

(** ** Data *)

Definition Buffer : Type := list Byte.byte.

(** [String(uid)] for a message UID (a non-negative integer). *)
Definition Number_toString (n : N) : string := pretty n.

(** The fields of imapflow's [FetchMessageObject] that the query
    [{ uid: true, source: true }] asks for; [source] may be [undefined]. *)
Record FetchMessageObject : Type := {
  uid : N;
  source : option Buffer;
}.

Record FetchQueryObject : Type := {
  query_uid : bool;
  query_source : bool;
}.

(** What [await client.fetchOne(...)] resolves to: a message, or one of the
    falsy values [false] and [undefined]. *)
Inductive FetchOneResult : Type :=
| FetchedMessage (emailInfo : FetchMessageObject)
| FetchedFalse
| FetchedUndefined.

(** One run of the async generator [client.fetch(...)]. *)
Inductive FetchStream : Type :=
| StreamEnd
| StreamThrow (e : JsError)
| StreamYield (email : FetchMessageObject) (rest : FetchStream).

(** The stream that yields [emails] in order and then finishes as [tail]. *)
Definition yields (emails : list FetchMessageObject) (tail : FetchStream)
  : FetchStream :=
  foldr StreamYield tail emails.

(** [results.push(item)]. *)
Definition push {A} (results : list A) (item : A) : list A :=
  results ++ [item].

(** ** The collaborators *)

(** [IBinaryData] is the host's staged blob, [SearchObject] imapflow's search
    criteria object, [Buffer_toString] is [buffer.toString()], the UTF-8
    decoding of Node's [Buffer]. *)
Class Externals : Type := {
  IBinaryData : Type;
  SearchObject : Type;
  Buffer_toString : Buffer → string;
}.

(** [INodeExecutionData]: [binary] is [undefined] or a map of blobs,
    [pairedItem] is [{ item: itemIndex }]. *)
Record INodeExecutionData `{Externals} : Type := {
  json : gmap string string;
  binary : option (gmap string IBinaryData);
  pairedItem : nat;
}.

(** The host context. Parameters have the types their declarations give them;
    [None] is a parameter that is not set. *)
Record IExecuteFunctions `{Externals} : Type := {
  stringParameter : string → nat → option string;
  booleanParameter : string → nat → option bool;
  helpers_prepareBinaryData :
    option Buffer → string → string → Completion IBinaryData;
}.

(** The client: [mailboxOpen(path, { readOnly })],
    [fetchOne(seq, query, { uid })] and [fetch(range, query)]. *)
Record ImapFlow `{Externals} : Type := {
  mailboxOpen : string → bool → Completion unit;
  fetchOne : string → FetchQueryObject → bool → Completion FetchOneResult;
  fetch : SearchObject → FetchQueryObject → FetchStream;
}.

(** The helpers of utils/SearchFieldParameters and utils/EmailSearchParameters
    that the routine calls. *)
Class Utils `{Externals} : Type := {
  getMailboxPathFromNodeParameter : IExecuteFunctions → nat → Completion string;
  getEmailSearchParametersFromNode :
    IExecuteFunctions → nat → Completion SearchObject;
}.

(** [context.getNodeParameter(name, itemIndex, fallback)]: the value, else the
    fallback, else the host's error. *)
Definition getNodeParameter {A} (lookup : string → nat → option A)
    (name : string) (itemIndex : nat) (fallback : option A) : Completion A :=
  match lookup name itemIndex with
  | Some v => Return v
  | None =>
      match fallback with
      | Some v => Return v
      | None => Throw (ExternalError "ApplicationError" "Could not get parameter")
      end
  end.

(** ** The parameter declarations the routine reads *)

Inductive NodeParameterValue : Type :=
| StringValue (s : string)
| BooleanValue (b : bool).

Inductive NodePropertyType : Type :=
| type_string
| type_boolean.

(** An entry of [downloadOperation.parameters]; [show] is
    [displayOptions.show], empty when the entry has no [displayOptions]. *)
Record INodeProperties : Type := {
  displayName : string;
  name : string;
  type : NodePropertyType;
  default : NodeParameterValue;
  required : bool;
  show : list (string * list NodeParameterValue);
}.

Definition emailUidProperty : INodeProperties :=
  {| displayName := "Email UID";
     name := "emailUid";
     type := type_string;
     default := StringValue "";
     required := false;
     show := [] |}.

Definition outputToBinaryProperty : INodeProperties :=
  {| displayName := "Output to Binary Data";
     name := "outputToBinary";
     type := type_boolean;
     default := BooleanValue true;
     required := false;
     show := [] |}.

Definition binaryPropertyNameProperty : INodeProperties :=
  {| displayName := "Put Output File in Field";
     name := "binaryPropertyName";
     type := type_string;
     default := StringValue "data";
     required := true;
     show := [("outputToBinary", [BooleanValue true])] |}.

(** ** The routine *)

Definition query : FetchQueryObject :=
  {| query_uid := true; query_source := true |}.

(** [x.toString()] where [x] is a [Buffer] or [undefined]. *)
Definition source_toString `{Externals} (src : option Buffer)
  : Completion string :=
  match src with
  | Some b => Return (Buffer_toString b)
  | None =>
      Throw (TypeError "Cannot read properties of undefined (reading 'toString')")
  end.

(** The output shaping, which the source repeats verbatim in each branch
    (lines 150-167 and 174-191, and lines 145-169 of the original): [src] is
    the message's [source], [uidText] what is concatenated into the file
    name. *)
Definition shapeRecord `{Externals} (context : IExecuteFunctions)
    (itemIndex : nat) (mailboxPath : string) (outputToBinary : bool)
    (binaryPropertyName : string) (src : option Buffer) (uidText : string)
  : Completion INodeExecutionData :=
  if outputToBinary then
    binaryData ← helpers_prepareBinaryData context src
                   (mailboxPath +:+ "_" +:+ uidText +:+ ".eml")
                   "message/rfc822";
    mret {| json := ∅;
            binary := Some {[ binaryPropertyName := binaryData ]};
            pairedItem := itemIndex |}
  else
    emlContent ← source_toString src;
    mret {| json := <[ "emlContent" := emlContent ]> ∅;
            binary := None;
            pairedItem := itemIndex |}.

(** Lines 144-167, "Download a single email by UID": the branch taken when
    [emailUid] is truthy. *)
Definition downloadSingleByUid `{Externals} (context : IExecuteFunctions)
    (itemIndex : nat) (client : ImapFlow) (mailboxPath emailUid : string)
    (outputToBinary : bool) (binaryPropertyName : string)
    (results : list INodeExecutionData)
  : Completion (list INodeExecutionData) :=
  emailInfo ← fetchOne client emailUid query true;
  match emailInfo with
  | FetchedFalse | FetchedUndefined => Throw NoEmailWithUid
  | FetchedMessage emailInfo =>
      match source emailInfo with
      | None => Throw NoEmailWithUid
      | Some src =>
          item ← shapeRecord context itemIndex mailboxPath outputToBinary
                   binaryPropertyName (Some src) emailUid;
          mret (push results item)
      end
  end.

(** The [for await] loop of lines 172-192, with the two mutable locals
    [foundAny] and [results] it updates. *)
Fixpoint forAwait `{Externals} (context : IExecuteFunctions) (itemIndex : nat)
    (mailboxPath : string) (outputToBinary : bool)
    (binaryPropertyName : string) (stream : FetchStream)
    (foundAny : bool) (results : list INodeExecutionData)
  : Completion (bool * list INodeExecutionData) :=
  match stream with
  | StreamEnd => Return (foundAny, results)
  | StreamThrow e => Throw e
  | StreamYield email rest =>
      item ← shapeRecord context itemIndex mailboxPath outputToBinary
               binaryPropertyName (source email) (Number_toString (uid email));
      forAwait context itemIndex mailboxPath outputToBinary
        binaryPropertyName rest true (push results item)
  end.

(** Lines 168-196, "Download all emails matching search parameters": the
    branch taken when [emailUid] is the empty string. *)
Definition downloadAllMatching `{Utils} (context : IExecuteFunctions)
    (itemIndex : nat) (client : ImapFlow) (mailboxPath : string)
    (outputToBinary : bool) (binaryPropertyName : string)
    (results : list INodeExecutionData)
  : Completion (list INodeExecutionData) :=
  searchObject ← getEmailSearchParametersFromNode context itemIndex;
  '(foundAny, results) ←
    forAwait context itemIndex mailboxPath outputToBinary binaryPropertyName
      (fetch client searchObject query) false results;
  if negb foundAny then Throw NoEmailsMatching
  else mret results.

(** The dual-mode [executeImapAction]; its result type is
    [INodeExecutionData[] | null]. *)
Definition executeImapAction `{Utils} (context : IExecuteFunctions)
    (itemIndex : nat) (client : ImapFlow)
  : Completion (option (list INodeExecutionData)) :=
  mailboxPath ← getMailboxPathFromNodeParameter context itemIndex;
  _ ← mailboxOpen client mailboxPath true;
  emailUid ← getNodeParameter (stringParameter context) "emailUid" itemIndex None;
  outputToBinary ←
    getNodeParameter (booleanParameter context) "outputToBinary" itemIndex
      (Some true);
  binaryPropertyName ←
    getNodeParameter (stringParameter context) "binaryPropertyName" itemIndex
      (Some "data");
  results ←
    (if bool_decide (emailUid ≠ "") then
       downloadSingleByUid context itemIndex client mailboxPath emailUid
         outputToBinary binaryPropertyName []
     else
       downloadAllMatching context itemIndex client mailboxPath
         outputToBinary binaryPropertyName []);
  mret (Some results).

(** ** The original routine (EmailDownload.ts) *)

(** [emailInfo.source] where [emailInfo] was not checked: reading a property
    of [undefined] throws, reading one of [false] gives [undefined]. *)
Definition emailInfo_source (emailInfo : FetchOneResult)
  : Completion (option Buffer) :=
  match emailInfo with
  | FetchedMessage emailInfo => Return (source emailInfo)
  | FetchedFalse => Return None
  | FetchedUndefined =>
      Throw (TypeError "Cannot read properties of undefined (reading 'source')")
  end.

Definition executeImapAction_original `{Utils} (context : IExecuteFunctions)
    (itemIndex : nat) (client : ImapFlow)
  : Completion (option (list INodeExecutionData)) :=
  mailboxPath ← getMailboxPathFromNodeParameter context itemIndex;
  _ ← mailboxOpen client mailboxPath true;
  emailUid ← getNodeParameter (stringParameter context) "emailUid" itemIndex None;
  outputToBinary ←
    getNodeParameter (booleanParameter context) "outputToBinary" itemIndex
      (Some true);
  binaryPropertyName ←
    getNodeParameter (stringParameter context) "binaryPropertyName" itemIndex
      (Some "data");
  emailInfo ← fetchOne client emailUid query true;
  src ← emailInfo_source emailInfo;
  newItem ← shapeRecord context itemIndex mailboxPath outputToBinary
              binaryPropertyName src emailUid;
  mret (Some [newItem]).

(** ** The request and the records, as the design description names them *)

Inductive OutputMode : Type :=
| Binary
| Text.

Definition outputToBinaryOf (mode : OutputMode) : bool :=
  match mode with
  | Binary => true
  | Text => false
  end.

Record RetrievalRequest : Type := {
  mailboxPath : string;
  messageId : string;
  outputMode : OutputMode;
  binaryFieldName : string;
}.

(** The routine reads [request] from the context and opens its mailbox: the
    five steps before the branch (lines 130-135) all succeed. *)
Definition reads `{Utils} (context : IExecuteFunctions) (itemIndex : nat)
    (client : ImapFlow) (request : RetrievalRequest) : Prop :=
  getMailboxPathFromNodeParameter context itemIndex
    = Return (mailboxPath request)
  ∧ mailboxOpen client (mailboxPath request) true = Return ()
  ∧ getNodeParameter (stringParameter context) "emailUid" itemIndex None
    = Return (messageId request)
  ∧ getNodeParameter (booleanParameter context) "outputToBinary" itemIndex
      (Some true)
    = Return (outputToBinaryOf (outputMode request))
  ∧ getNodeParameter (stringParameter context) "binaryPropertyName" itemIndex
      (Some "data")
    = Return (binaryFieldName request).

(** A record whose only payload is the blob [blob] under [fieldName]. *)
Definition BinaryRecord `{Externals} (fieldName : string) (blob : IBinaryData)
    (r : INodeExecutionData) : Prop :=
  json r = ∅ ∧ binary r = Some {[ fieldName := blob ]}.

(** A record whose only payload is the JSON field [emlContent]. *)
Definition TextRecord `{Externals} (text : string) (r : INodeExecutionData)
  : Prop :=
  json r = {[ "emlContent" := text ]} ∧ binary r = None.

(** [r] is the record of a message with raw source [src], for the request
    [request] at input item [itemIndex], where [uidText] stands for the UID
    in the file name. *)
Definition carries `{Externals} (context : IExecuteFunctions)
    (request : RetrievalRequest) (itemIndex : nat) (src : option Buffer)
    (uidText : string) (r : INodeExecutionData) : Prop :=
  pairedItem r = itemIndex
  ∧ match outputMode request with
    | Binary =>
        ∃ blob,
          helpers_prepareBinaryData context src
            (mailboxPath request +:+ "_" +:+ uidText +:+ ".eml")
            "message/rfc822" = Return blob
          ∧ BinaryRecord (binaryFieldName request) blob r
    | Text =>
        ∃ b, src = Some b ∧ TextRecord (Buffer_toString b) r
    end.

(** The bulk branch can shape [email]: in text mode the message has a raw
    source, in binary mode the host stages it. *)
Definition processable `{Externals} (context : IExecuteFunctions)
    (request : RetrievalRequest) (email : FetchMessageObject) : Prop :=
  match outputMode request with
  | Binary =>
      ∃ blob,
        helpers_prepareBinaryData context (source email)
          (mailboxPath request +:+ "_" +:+ Number_toString (uid email) +:+ ".eml")
          "message/rfc822" = Return blob
  | Text => is_Some (source email)
  end.

(** The messages a stream yields, in order, whatever its end. *)
Fixpoint streamMessages (stream : FetchStream) : list FetchMessageObject :=
  match stream with
  | StreamEnd | StreamThrow _ => []
  | StreamYield email rest => email :: streamMessages rest
  end.

(** [email] is a message the client hands to the invocation: the answer of
    [fetchOne] on the single path, a message of the stream on the bulk
    path. *)
Definition delivered `{Utils} (context : IExecuteFunctions) (itemIndex : nat)
    (client : ImapFlow) (request : RetrievalRequest)
    (email : FetchMessageObject) : Prop :=
  if bool_decide (messageId request ≠ "") then
    fetchOne client (messageId request) query true
      = Return (FetchedMessage email)
  else
    ∃ searchObject,
      getEmailSearchParametersFromNode context itemIndex = Return searchObject
      ∧ email ∈ streamMessages (fetch client searchObject query).

(** What the file name of each path concatenates for the UID: the request's
    [emailUid] text on the single path, [email.uid] on the bulk path. *)
Definition uidTextOf (request : RetrievalRequest) (email : FetchMessageObject)
  : string :=
  if bool_decide (messageId request ≠ "") then messageId request
  else Number_toString (uid email).

(** The record of [email] on the bulk path. *)
Definition bulkRecord `{Externals} (context : IExecuteFunctions)
    (request : RetrievalRequest) (itemIndex : nat)
    (email : FetchMessageObject) (r : INodeExecutionData) : Prop :=
  carries context request itemIndex (source email)
    (Number_toString (uid email)) r.

(** The answers of [fetchOne] that the single path refuses: a falsy answer,
    or a message without [source]. *)
Definition noRawContent (answer : FetchOneResult) : Prop :=
  match answer with
  | FetchedMessage emailInfo => source emailInfo = None
  | FetchedFalse | FetchedUndefined => True
  end.

(** ** A concrete host and client *)

(** A staging helper that keeps what it was given. *)
Record StagedBlob : Type := {
  blob_data : option Buffer;
  blob_fileName : string;
  blob_mimeType : string;
}.

Definition stage (data : option Buffer) (fileName mimeType : string)
  : Completion StagedBlob :=
  Return {| blob_data := data;
            blob_fileName := fileName;
            blob_mimeType := mimeType |}.

Definition sampleExternals : Externals :=
  {| IBinaryData := StagedBlob;
     SearchObject := list string;
     Buffer_toString := String.string_of_list_byte |}.

(** A node on mailbox INBOX with the given [emailUid], [outputToBinary] and
    [binaryPropertyName] settings. *)
Definition sampleContext (emailUid : string) (outputToBinary : option bool)
    (binaryPropertyName : option string) : @IExecuteFunctions sampleExternals :=
  @Build_IExecuteFunctions sampleExternals
    (λ name _,
       if String.eqb name "emailUid" then Some emailUid
       else if String.eqb name "binaryPropertyName" then binaryPropertyName
       else if String.eqb name "mailboxPath" then Some "INBOX"
       else None)
    (λ name _,
       if String.eqb name "outputToBinary" then outputToBinary else None)
    stage.

Definition sampleUtils : @Utils sampleExternals :=
  @Build_Utils sampleExternals
    (λ context itemIndex,
       getNodeParameter (stringParameter context) "mailboxPath" itemIndex None)
    (λ context itemIndex,
       match stringParameter context "subject" itemIndex with
       | Some subject => Return ["SUBJECT"; subject]
       | None => Return ["ALL"]
       end).

(** The same node with the search criterion [subject] set. *)
Definition withSubject (subject : string)
    (context : @IExecuteFunctions sampleExternals)
  : @IExecuteFunctions sampleExternals :=
  @Build_IExecuteFunctions sampleExternals
    (λ name itemIndex,
       if String.eqb name "subject" then Some subject
       else stringParameter context name itemIndex)
    (booleanParameter context)
    (helpers_prepareBinaryData context).

Definition message (n : N) (text : string) : FetchMessageObject :=
  {| uid := n; source := Some (String.list_byte_of_string text) |}.

(** A mailbox that holds messages 5, 9, 42 and 57, the last being the latest;
    [fetch] answers with [stream]. *)
Definition sampleClient (stream : FetchStream) : @ImapFlow sampleExternals :=
  @Build_ImapFlow sampleExternals
    (λ _ _, Return ())
    (λ seq _ _,
       if String.eqb seq "42" then Return (FetchedMessage (message 42 "Subject: b"))
       else if String.eqb seq "*" then Return (FetchedMessage (message 57 "Subject: z"))
       else if String.eqb seq "7" then
         Return (FetchedMessage {| uid := 7; source := None |})
       else Return FetchedFalse)
    (λ _ _, stream).

Definition twoMatches : FetchStream :=
  yields [message 5 "Subject: a"; message 9 "Subject: c"] StreamEnd.

Definition brokenAfterOne : FetchStream :=
  yields [message 5 "Subject: a"]
    (StreamThrow (ExternalError "Error" "Connection closed")).

(** The request that [sampleContext] holds when all three settings are
    given. *)
Definition sampleRequest (emailUid : string) (mode : OutputMode)
    (fieldName : string) : RetrievalRequest :=
  {| mailboxPath := "INBOX";
     messageId := emailUid;
     outputMode := mode;
     binaryFieldName := fieldName |}.

Definition stagedAs (text fileName : string) : StagedBlob :=
  {| blob_data := Some (String.list_byte_of_string text);
     blob_fileName := fileName;
     blob_mimeType := "message/rfc822" |}.

Definition binaryItem (fieldName : string) (blob : StagedBlob)
    (itemIndex : nat) : @INodeExecutionData sampleExternals :=
  @Build_INodeExecutionData sampleExternals ∅ (Some {[ fieldName := blob ]})
    itemIndex.

Definition textItem (text : string) (itemIndex : nat)
  : @INodeExecutionData sampleExternals :=
  @Build_INodeExecutionData sampleExternals {[ "emlContent" := text ]} None
    itemIndex.

(** The routine on this host. *)
Abbreviation run := (@executeImapAction sampleExternals sampleUtils).
Abbreviation run_original :=
  (@executeImapAction_original sampleExternals sampleUtils).

(** ** Three sentences of the design description, as they are written *)


(** "Binary filename equals mailboxPath + _ + uid + .eml exactly", with uid
    the UID of the message the blob was staged from. *)
Definition filename_from_message_uid `{Utils} (context : IExecuteFunctions)
    (itemIndex : nat) (client : ImapFlow) : Prop :=
  ∀ request rs r blob,
    reads context itemIndex client request →
    outputMode request = Binary →
    executeImapAction context itemIndex client = Return (Some rs) →
    r ∈ rs →
    BinaryRecord (binaryFieldName request) blob r →
    ∃ email,
      delivered context itemIndex client request email
      ∧ helpers_prepareBinaryData context (source email)
          (mailboxPath request +:+ "_" +:+ Number_toString (uid email) +:+ ".eml")
          "message/rfc822" = Return blob.

(** "Binary field name required iff binary mode selected, validated eagerly":
    a binary-mode invocation without a binary field name is rejected. *)
Definition rejects_missing_binary_name `{Utils} (context : IExecuteFunctions)
    (itemIndex : nat) (client : ImapFlow) : Prop :=
  booleanParameter context "outputToBinary" itemIndex = Some true →
  stringParameter context "binaryPropertyName" itemIndex = None →
  ∃ e, executeImapAction context itemIndex client = Throw e.

(** ** Further notions for the properties of the two routines *)

(** The stream ends of its own accord, without throwing. *)
Fixpoint streamEnds (stream : FetchStream) : bool :=
  match stream with
  | StreamEnd => true
  | StreamThrow _ => false
  | StreamYield _ rest => streamEnds rest
  end.

(** Line 177: the file name of the bulk branch,
    [mailboxPath + '_' + email.uid + '.eml']. *)
Definition bulkFileName (mailboxPath : string) (n : N) : string :=
  mailboxPath +:+ "_" +:+ Number_toString n +:+ ".eml".

(** The character [a] occurs in [s]. *)
Fixpoint occurs (a : ascii) (s : string) : Prop :=
  match s with
  | EmptyString => False
  | String b rest => a = b ∨ occurs a rest
  end.

(** Two contexts answer alike to everything the routine reads from the node:
    the two helpers of utils/ and the three parameters. *)
Definition sameReads `{Utils} (context1 context2 : IExecuteFunctions)
    (itemIndex : nat) : Prop :=
  getMailboxPathFromNodeParameter context1 itemIndex
    = getMailboxPathFromNodeParameter context2 itemIndex
  ∧ getEmailSearchParametersFromNode context1 itemIndex
    = getEmailSearchParametersFromNode context2 itemIndex
  ∧ stringParameter context1 "emailUid" itemIndex
    = stringParameter context2 "emailUid" itemIndex
  ∧ booleanParameter context1 "outputToBinary" itemIndex
    = booleanParameter context2 "outputToBinary" itemIndex
  ∧ stringParameter context1 "binaryPropertyName" itemIndex
    = stringParameter context2 "binaryPropertyName" itemIndex.

(** Two contexts have staging helpers that answer alike. *)
Definition sameStaging `{Externals} (context1 context2 : IExecuteFunctions)
  : Prop :=
  ∀ data fileName mimeType,
    helpers_prepareBinaryData context1 data fileName mimeType
    = helpers_prepareBinaryData context2 data fileName mimeType.

(** The sample node with one more string parameter set. *)
Definition withStringParameter (key value : string)
    (context : @IExecuteFunctions sampleExternals)
  : @IExecuteFunctions sampleExternals :=
  @Build_IExecuteFunctions sampleExternals
    (λ name itemIndex,
       if String.eqb name key then Some value
       else stringParameter context name itemIndex)
    (booleanParameter context)
    (helpers_prepareBinaryData context).

(** The sample node on a host whose staging helper always rejects. *)
Definition withBrokenStaging (context : @IExecuteFunctions sampleExternals)
  : @IExecuteFunctions sampleExternals :=
  @Build_IExecuteFunctions sampleExternals
    (stringParameter context)
    (booleanParameter context)
    (λ _ _ _, Throw (ExternalError "Error" "ENOSPC")).

(** A host that stages every message but the one named [fileName]. *)
Definition stageExcept (fileName : string) (data : option Buffer)
    (name mimeType : string) : Completion StagedBlob :=
  if String.eqb name fileName then Throw (ExternalError "Error" "ENOSPC")
  else stage data name mimeType.

Definition sampleContextExcept (fileName : string)
  : @IExecuteFunctions sampleExternals :=
  @Build_IExecuteFunctions sampleExternals
    (stringParameter (sampleContext "" (Some true) (Some "data")))
    (booleanParameter (sampleContext "" (Some true) (Some "data")))
    (stageExcept fileName).

(** A client whose [fetchOne], respectively [fetch], is replaced. *)
Definition withFetchOne
    (answer : string → FetchQueryObject → bool → Completion FetchOneResult)
    (client : @ImapFlow sampleExternals) : @ImapFlow sampleExternals :=
  @Build_ImapFlow sampleExternals (mailboxOpen client) answer (fetch client).

(** A client that cannot open the mailbox. *)
Definition closedClient : @ImapFlow sampleExternals :=
  @Build_ImapFlow sampleExternals
    (λ _ _, Throw (ExternalError "Error" "Mailbox doesn't exist"))
    (λ _ _ _, Return FetchedFalse)
    (λ _ _, StreamEnd).

(** A client whose [fetchOne] always answers [answer]. *)
Definition answeringClient (answer : FetchOneResult)
  : @ImapFlow sampleExternals :=
  @Build_ImapFlow sampleExternals
    (λ _ _, Return ())
    (λ _ _ _, Return answer)
    (λ _ _, StreamEnd).

(** * Properties *)

Section Properties.

Context `{Utils}.
Implicit Types (context : IExecuteFunctions) (client : ImapFlow).
Implicit Types (request : RetrievalRequest) (email : FetchMessageObject).
Implicit Types (r item : INodeExecutionData) (rs : list INodeExecutionData).

(** *** Completions *)

Lemma bind_Return_inv {A B} (c : Completion A) (f : A → Completion B) b :
  c ≫= f = Return b → ∃ a, c = Return a ∧ f a = Return b.
Proof. destruct c as [a|e]; [eauto | discriminate]. Qed.

Lemma bind_Throw_inv {A B} (c : Completion A) (f : A → Completion B) e :
  c ≫= f = Throw e → c = Throw e ∨ ∃ a, c = Return a ∧ f a = Throw e.
Proof.
  destruct c as [a|e']; intros Hc; [right; eauto | left].
  simpl in Hc. by injection Hc as ->.
Qed.

Tactic Notation "bind_inv" hyp(H) "as" ident(a) ident(Ha) :=
  apply bind_Return_inv in H as (a & Ha & H).

(** *** Reading the request *)

Lemma executeImapAction_reads context itemIndex client request :
  reads context itemIndex client request →
  executeImapAction context itemIndex client =
    (results ←
       (if bool_decide (messageId request ≠ "") then
          downloadSingleByUid context itemIndex client (mailboxPath request)
            (messageId request) (outputToBinaryOf (outputMode request))
            (binaryFieldName request) []
        else
          downloadAllMatching context itemIndex client (mailboxPath request)
            (outputToBinaryOf (outputMode request)) (binaryFieldName request) []);
     mret (Some results)).
Proof.
  intros (Hpath & Hopen & Huid & Hmode & Hname).
  unfold executeImapAction.
  rewrite Hpath; simpl. rewrite Hopen; simpl. rewrite Huid; simpl.
  rewrite Hmode; simpl. rewrite Hname; simpl. reflexivity.
Qed.

(** A call that returns has read a request. *)
Lemma Return_reads context itemIndex client out :
  executeImapAction context itemIndex client = Return out →
  ∃ request, reads context itemIndex client request.
Proof.
  unfold executeImapAction. intros Hrun.
  bind_inv Hrun as path Hpath.
  bind_inv Hrun as u Hopen. destruct u.
  bind_inv Hrun as emailUid Huid.
  bind_inv Hrun as toBinary Hmode.
  bind_inv Hrun as fieldName Hname.
  exists {| mailboxPath := path; messageId := emailUid;
            outputMode := if toBinary then Binary else Text;
            binaryFieldName := fieldName |}.
  unfold reads; simpl. repeat split; try assumption.
  destruct toBinary; assumption.
Qed.

(** *** Shaping one record *)

Lemma shapeRecord_carries context request itemIndex src uidText r :
  shapeRecord context itemIndex (mailboxPath request)
    (outputToBinaryOf (outputMode request)) (binaryFieldName request)
    src uidText = Return r
  ↔ carries context request itemIndex src uidText r.
Proof.
  unfold shapeRecord, carries, BinaryRecord, TextRecord.
  destruct (outputMode request); simpl.
  - destruct (helpers_prepareBinaryData _ _ _ _) as [blob|e]; simpl; split.
    + intros [= <-]; simpl. eauto.
    + intros (Hi & blob' & [= <-] & Hj & Hb).
      destruct r; simpl in *; by subst.
    + discriminate.
    + by intros (_ & blob' & ? & _).
  - destruct src as [b|]; simpl; split.
    + intros [= <-]; simpl. rewrite insert_empty. eauto.
    + intros (Hi & b' & [= <-] & Hj & Hb).
      destruct r; simpl in *; subst. by rewrite insert_empty.
    + discriminate.
    + by intros (_ & b' & ? & _).
Qed.

Lemma processable_shapeRecord context request itemIndex email :
  processable context request email →
  ∃ r, shapeRecord context itemIndex (mailboxPath request)
         (outputToBinaryOf (outputMode request)) (binaryFieldName request)
         (source email) (Number_toString (uid email)) = Return r.
Proof.
  unfold processable, shapeRecord.
  destruct (outputMode request); simpl.
  - intros [blob ->]; simpl. eauto.
  - intros [b ->]; simpl. eauto.
Qed.

(** *** The loop *)

Lemma forAwait_yields context request itemIndex emails tail foundAny results :
  Forall (processable context request) emails →
  ∃ rs,
    Forall2 (bulkRecord context request itemIndex) emails rs
    ∧ forAwait context itemIndex (mailboxPath request)
        (outputToBinaryOf (outputMode request)) (binaryFieldName request)
        (yields emails tail) foundAny results
      = forAwait context itemIndex (mailboxPath request)
          (outputToBinaryOf (outputMode request)) (binaryFieldName request)
          tail (foundAny || bool_decide (emails ≠ [])) (results ++ rs).
Proof.
  intros Hall. revert foundAny results.
  induction Hall as [|email emails Hemail _ IH]; intros foundAny results.
  - exists []. split; [constructor|]. simpl.
    by rewrite orb_false_r, app_nil_r.
  - destruct (processable_shapeRecord _ _ itemIndex _ Hemail) as [r Hr].
    destruct (IH true (push results r)) as (rs & Hrs & Hloop).
    exists (r :: rs). split.
    + constructor; [by apply shapeRecord_carries | done].
    + simpl. rewrite Hr; simpl. rewrite Hloop.
      unfold push. rewrite <- app_assoc. simpl. by rewrite orb_true_r.
Qed.

Lemma forAwait_Return context request itemIndex stream foundAny results
    foundAny' results' :
  forAwait context itemIndex (mailboxPath request)
    (outputToBinaryOf (outputMode request)) (binaryFieldName request)
    stream foundAny results = Return (foundAny', results') →
  ∃ rs,
    results' = results ++ rs
    ∧ Forall2 (bulkRecord context request itemIndex) (streamMessages stream) rs
    ∧ foundAny' = foundAny || bool_decide (rs ≠ []).
Proof.
  revert foundAny results.
  induction stream as [|e|email rest IH]; intros foundAny results; simpl.
  - intros [= <- <-]. exists []. split_and!.
    + by rewrite app_nil_r.
    + constructor.
    + by rewrite orb_false_r.
  - discriminate.
  - intros Hrun. bind_inv Hrun as r Hr.
    apply IH in Hrun as (rs & -> & Hrs & ->).
    exists (r :: rs). split_and!.
    + unfold push. by rewrite <- app_assoc.
    + constructor; [by apply shapeRecord_carries | done].
    + by rewrite orb_true_r.
Qed.

(** *** The two branches *)

Lemma downloadSingleByUid_found context itemIndex client request email src :
  fetchOne client (messageId request) query true
    = Return (FetchedMessage email) →
  source email = Some src →
  downloadSingleByUid context itemIndex client (mailboxPath request)
    (messageId request) (outputToBinaryOf (outputMode request))
    (binaryFieldName request) []
  = (item ← shapeRecord context itemIndex (mailboxPath request)
              (outputToBinaryOf (outputMode request))
              (binaryFieldName request) (Some src) (messageId request);
     mret [item]).
Proof.
  intros Hfetch Hsrc. unfold downloadSingleByUid.
  rewrite Hfetch; simpl. by rewrite Hsrc.
Qed.

Lemma downloadSingleByUid_refused context itemIndex client request answer :
  fetchOne client (messageId request) query true = Return answer →
  noRawContent answer →
  downloadSingleByUid context itemIndex client (mailboxPath request)
    (messageId request) (outputToBinaryOf (outputMode request))
    (binaryFieldName request) []
  = Throw NoEmailWithUid.
Proof.
  intros Hfetch Hno. unfold downloadSingleByUid.
  rewrite Hfetch; simpl.
  destruct answer as [email| |]; simpl in *; [by rewrite Hno | done | done].
Qed.

Lemma downloadSingleByUid_Return context itemIndex client request rs :
  downloadSingleByUid context itemIndex client (mailboxPath request)
    (messageId request) (outputToBinaryOf (outputMode request))
    (binaryFieldName request) [] = Return rs →
  ∃ email src r,
    fetchOne client (messageId request) query true
      = Return (FetchedMessage email)
    ∧ source email = Some src
    ∧ rs = [r]
    ∧ carries context request itemIndex (Some src) (messageId request) r.
Proof.
  unfold downloadSingleByUid. intros Hrun.
  bind_inv Hrun as answer Hfetch. destruct answer as [email| |]; try discriminate.
  destruct (source email) as [src|] eqn:Hsrc; try discriminate.
  bind_inv Hrun as r Hr. injection Hrun as <-.
  exists email, src, r. split_and!; try done.
  by apply shapeRecord_carries.
Qed.

Lemma downloadAllMatching_Return context itemIndex client request rs :
  downloadAllMatching context itemIndex client (mailboxPath request)
    (outputToBinaryOf (outputMode request)) (binaryFieldName request) []
    = Return rs →
  ∃ searchObject,
    getEmailSearchParametersFromNode context itemIndex = Return searchObject
    ∧ rs ≠ []
    ∧ Forall2 (bulkRecord context request itemIndex)
        (streamMessages (fetch client searchObject query)) rs.
Proof.
  unfold downloadAllMatching. intros Hrun.
  bind_inv Hrun as searchObject Hso.
  bind_inv Hrun as loop Hloop. destruct loop as [foundAny results].
  apply forAwait_Return in Hloop as (rs' & -> & Hrs & ->). simpl in *.
  exists searchObject. case_bool_decide as Hne; simpl in Hrun; [|discriminate].
  injection Hrun as <-. done.
Qed.

(** What a returning call returns: a non-empty list, each record carrying a
    message the client delivered. *)
Lemma executeImapAction_Return context itemIndex client request out :
  reads context itemIndex client request →
  executeImapAction context itemIndex client = Return out →
  ∃ rs,
    out = Some rs ∧ rs ≠ []
    ∧ ∀ r, r ∈ rs →
        ∃ email,
          delivered context itemIndex client request email
          ∧ carries context request itemIndex (source email)
              (uidTextOf request email) r.
Proof.
  intros Hreads Hrun.
  rewrite (executeImapAction_reads _ _ _ _ Hreads) in Hrun.
  bind_inv Hrun as rs Ha. injection Hrun as <-.
  exists rs. unfold delivered, uidTextOf.
  case_bool_decide as Hid.
  - apply downloadSingleByUid_Return in Ha as (email & src & r & Hf & Hs & -> & Hr).
    split_and!; [done | done |].
    intros r' ->%list_elem_of_singleton. exists email. by rewrite Hs.
  - apply downloadAllMatching_Return in Ha as (searchObject & Hso & Hne & Hrs).
    split_and!; [done | done |].
    intros r (k & Hk)%list_elem_of_lookup.
    destruct (Forall2_lookup_r _ _ _ _ _ Hrs Hk) as (email & Hemail & Hr).
    exists email. split; [|done].
    exists searchObject. split; [done|]. by eapply list_elem_of_lookup_2.
Qed.

Lemma executeImapAction_bulk context itemIndex client request searchObject :
  reads context itemIndex client request →
  messageId request = "" →
  getEmailSearchParametersFromNode context itemIndex = Return searchObject →
  executeImapAction context itemIndex client =
    ('(foundAny, results) ←
       forAwait context itemIndex (mailboxPath request)
         (outputToBinaryOf (outputMode request)) (binaryFieldName request)
         (fetch client searchObject query) false [];
     if negb foundAny then Throw NoEmailsMatching else mret (Some results)).
Proof.
  intros Hreads Hid Hso.
  rewrite (executeImapAction_reads _ _ _ _ Hreads).
  rewrite bool_decide_eq_false_2 by (intros Hne; by apply Hne).
  unfold downloadAllMatching. rewrite Hso; simpl.
  destruct (forAwait _ _ _ _ _ _ _ _) as [[foundAny results]|e]; simpl; [|done].
  by destruct foundAny.
Qed.

(** *** The bulk path *)


(** C3. With an empty [messageId], when the fetch stream ends without having
    yielded a message, the call throws the no-match error and returns
    nothing. *)
Theorem bulk_no_match_is_an_error context itemIndex client request searchObject :
  reads context itemIndex client request →
  messageId request = "" →
  getEmailSearchParametersFromNode context itemIndex = Return searchObject →
  fetch client searchObject query = StreamEnd →
  executeImapAction context itemIndex client = Throw NoEmailsMatching
  ∧ NotFoundError NoEmailsMatching.
Proof.
  intros Hreads Hid Hso Hfetch. split; [|by right].
  rewrite (executeImapAction_bulk _ _ _ _ _ Hreads Hid Hso).
  by rewrite Hfetch.
Qed.

(** C7. With an empty [messageId], when the fetch stream throws [e] after
    having yielded [emails], each of which was shaped into a record, the call
    throws [e]: the records made so far are not returned. *)
Theorem bulk_error_discards_records context itemIndex client request
    searchObject emails e :
  reads context itemIndex client request →
  messageId request = "" →
  getEmailSearchParametersFromNode context itemIndex = Return searchObject →
  fetch client searchObject query = yields emails (StreamThrow e) →
  Forall (processable context request) emails →
  executeImapAction context itemIndex client = Throw e.
Proof.
  intros Hreads Hid Hso Hfetch Hall.
  destruct (forAwait_yields context request itemIndex emails (StreamThrow e)
              false [] Hall) as (rs & _ & Hloop).
  rewrite (executeImapAction_bulk _ _ _ _ _ Hreads Hid Hso).
  by rewrite Hfetch, Hloop.
Qed.

(** C10. No call returns [null] and no call returns an empty list: a call
    throws, or returns a list with at least one record. *)
Theorem never_null_never_empty context itemIndex client :
  executeImapAction context itemIndex client ≠ Return None
  ∧ executeImapAction context itemIndex client ≠ Return (Some []).
Proof.
  split; intros Hrun.
  - destruct (Return_reads _ _ _ _ Hrun) as [request Hreads].
    by destruct (executeImapAction_Return _ _ _ _ _ Hreads Hrun) as (rs & ? & _).
  - destruct (Return_reads _ _ _ _ Hrun) as [request Hreads].
    destruct (executeImapAction_Return _ _ _ _ _ Hreads Hrun)
      as (rs & [= <-] & Hne & _).
    done.
Qed.

(** *** The single-UID path *)

Lemma executeImapAction_single context itemIndex client request :
  reads context itemIndex client request →
  messageId request ≠ "" →
  executeImapAction context itemIndex client =
    (results ←
       downloadSingleByUid context itemIndex client (mailboxPath request)
         (messageId request) (outputToBinaryOf (outputMode request))
         (binaryFieldName request) [];
     mret (Some results)).
Proof.
  intros Hreads Hid.
  rewrite (executeImapAction_reads _ _ _ _ Hreads).
  by rewrite bool_decide_eq_true_2.
Qed.

Lemma noRawContent_dec answer :
  noRawContent answer
  ∨ ∃ email src, answer = FetchedMessage email ∧ source email = Some src.
Proof.
  destruct answer as [email| |]; simpl; [|by left..].
  destruct (source email) as [src|] eqn:Hsrc; [right; eauto | by left].
Qed.

(** C2. With a non-empty [messageId] the call fetches the one message with
    that identifier. Whatever it returns is a list of exactly one record, the
    record of that message; it does return it when the message has a raw
    source and is shaped. When the client answers with no message, or with a
    message without raw source, the call throws the not-found error; and when
    the client answers at all, a throw is that error or the staging helper's
    own. *)
Theorem single_uid_one_record_or_not_found context itemIndex client request :
  reads context itemIndex client request →
  messageId request ≠ "" →
  (∀ out,
     executeImapAction context itemIndex client = Return out →
     ∃ email src r,
       fetchOne client (messageId request) query true
         = Return (FetchedMessage email)
       ∧ source email = Some src
       ∧ out = Some [r]
       ∧ carries context request itemIndex (Some src) (messageId request) r)
  ∧ (∀ email src r,
       fetchOne client (messageId request) query true
         = Return (FetchedMessage email) →
       source email = Some src →
       carries context request itemIndex (Some src) (messageId request) r →
       executeImapAction context itemIndex client = Return (Some [r]))
  ∧ (∀ answer,
       fetchOne client (messageId request) query true = Return answer →
       noRawContent answer →
       executeImapAction context itemIndex client = Throw NoEmailWithUid
       ∧ NotFoundError NoEmailWithUid)
  ∧ (∀ answer e,
       fetchOne client (messageId request) query true = Return answer →
       executeImapAction context itemIndex client = Throw e →
       (noRawContent answer ∧ e = NoEmailWithUid)
       ∨ (outputMode request = Binary
          ∧ ∃ email src,
              answer = FetchedMessage email ∧ source email = Some src
              ∧ helpers_prepareBinaryData context (Some src)
                  (mailboxPath request +:+ "_" +:+ messageId request +:+ ".eml")
                  "message/rfc822" = Throw e)).
Proof.
  intros Hreads Hid.
  pose proof (executeImapAction_single _ _ _ _ Hreads Hid) as Hrun.
  split_and!.
  - intros out Hout. rewrite Hrun in Hout.
    bind_inv Hout as rs Hrs. injection Hout as <-.
    apply downloadSingleByUid_Return in Hrs as (email & src & r & ? & ? & -> & ?).
    by exists email, src, r.
  - intros email src r Hfetch Hsrc Hr. rewrite Hrun.
    rewrite (downloadSingleByUid_found _ _ _ _ _ _ Hfetch Hsrc).
    apply shapeRecord_carries in Hr. by rewrite Hr.
  - intros answer Hfetch Hno. split; [|by left].
    rewrite Hrun. by rewrite (downloadSingleByUid_refused _ _ _ _ _ Hfetch Hno).
  - intros answer e Hfetch Hthrow. rewrite Hrun in Hthrow.
    destruct (noRawContent_dec answer) as [Hno|(email & src & -> & Hsrc)].
    + left. split; [done|].
      rewrite (downloadSingleByUid_refused _ _ _ _ _ Hfetch Hno) in Hthrow.
      by injection Hthrow as <-.
    + right.
      rewrite (downloadSingleByUid_found _ _ _ _ _ _ Hfetch Hsrc) in Hthrow.
      unfold shapeRecord in Hthrow.
      destruct (outputMode request); simpl in Hthrow; [|discriminate].
      split; [done|]. exists email, src. split_and!; [done..|].
      destruct (helpers_prepareBinaryData _ _ _ _) as [blob|e'];
        simpl in Hthrow; [discriminate|].
      by injection Hthrow as <-.
Qed.

(** *** The shape of the records *)

(** C4. Every record a call returns has exactly one payload area. In binary
    mode its JSON map is empty and its binary map holds one blob, under the
    configured field name. In text mode it has no binary map and its JSON map
    holds one field, [emlContent], the decoded raw source of a message the
    client delivered. *)
Theorem one_payload_area_per_mode context itemIndex client request rs r :
  reads context itemIndex client request →
  executeImapAction context itemIndex client = Return (Some rs) →
  r ∈ rs →
  match outputMode request with
  | Binary =>
      json r = ∅
      ∧ ∃ blob, binary r = Some {[ binaryFieldName request := blob ]}
  | Text =>
      binary r = None
      ∧ ∃ email b,
          delivered context itemIndex client request email
          ∧ source email = Some b
          ∧ json r = {[ "emlContent" := Buffer_toString b ]}
  end.
Proof.
  intros Hreads Hrun Hr.
  destruct (executeImapAction_Return _ _ _ _ _ Hreads Hrun)
    as (rs' & [= <-] & _ & Hall).
  destruct (Hall r Hr) as (email & Hemail & _ & Hpayload).
  destruct (outputMode request).
  - destruct Hpayload as (blob & _ & Hjson & Hbinary). eauto.
  - destruct Hpayload as (b & Hsrc & Hjson & Hbinary). eauto 6.
Qed.

(** C5, as the code has it. Every record returned in binary mode holds,
    under the configured field name, the blob that the host staged from a
    delivered message with media type message/rfc822 and the file name
    mailboxPath + "_" + uid + ".eml", where uid is the text of the request's
    [messageId] on the single-UID path and the decimal text of the message's
    UID on the bulk path. *)
Theorem binary_filename_per_path context itemIndex client request rs r :
  reads context itemIndex client request →
  outputMode request = Binary →
  executeImapAction context itemIndex client = Return (Some rs) →
  r ∈ rs →
  ∃ email blob,
    delivered context itemIndex client request email
    ∧ helpers_prepareBinaryData context (source email)
        (mailboxPath request +:+ "_"
           +:+ (if bool_decide (messageId request ≠ "")
                then messageId request
                else Number_toString (uid email))
           +:+ ".eml")
        "message/rfc822" = Return blob
    ∧ binary r = Some {[ binaryFieldName request := blob ]}.
Proof.
  intros Hreads Hmode Hrun Hr.
  destruct (executeImapAction_Return _ _ _ _ _ Hreads Hrun)
    as (rs' & [= <-] & _ & Hall).
  destruct (Hall r Hr) as (email & Hemail & _ & Hpayload).
  rewrite Hmode in Hpayload.
  destruct Hpayload as (blob & Hstage & _ & Hbinary).
  by exists email, blob.
Qed.

(** *** What the single-UID path does not depend on *)

(** C6. Two invocations with the same non-empty [emailUid], the same mailbox
    path, output mode, binary field name and staging helper, against the same
    client, give the same outcome, whatever else the two contexts hold: the
    search criteria are never read. *)
Theorem search_criteria_ignored_with_uid context1 context2 itemIndex client
    emailUid :
  getMailboxPathFromNodeParameter context1 itemIndex
    = getMailboxPathFromNodeParameter context2 itemIndex →
  stringParameter context1 "emailUid" itemIndex = Some emailUid →
  stringParameter context2 "emailUid" itemIndex = Some emailUid →
  emailUid ≠ "" →
  booleanParameter context1 "outputToBinary" itemIndex
    = booleanParameter context2 "outputToBinary" itemIndex →
  stringParameter context1 "binaryPropertyName" itemIndex
    = stringParameter context2 "binaryPropertyName" itemIndex →
  (∀ data fileName mimeType,
     helpers_prepareBinaryData context1 data fileName mimeType
       = helpers_prepareBinaryData context2 data fileName mimeType) →
  executeImapAction context1 itemIndex client
    = executeImapAction context2 itemIndex client.
Proof.
  intros Hpath Huid1 Huid2 Hne Hmode Hname Hstage.
  unfold executeImapAction, getNodeParameter.
  rewrite Hpath, Huid1, Huid2, Hmode, Hname.
  destruct (getMailboxPathFromNodeParameter context2 itemIndex) as [path|];
    simpl; [|done].
  destruct (mailboxOpen client path true); simpl; [|done].
  rewrite bool_decide_eq_true_2 by done.
  set (toBinary := match booleanParameter context2 _ _ with
                   | Some v => Return v | None => Return true end).
  destruct toBinary as [toBinary|]; simpl; [|done].
  set (fieldName := match stringParameter context2 "binaryPropertyName" _ with
                    | Some v => Return v | None => Return "data" end).
  destruct fieldName as [fieldName|]; simpl; [|done].
  unfold downloadSingleByUid.
  destruct (fetchOne client emailUid query true) as [[email| |]|]; simpl; try done.
  destruct (source email) as [src|]; [|done].
  unfold shapeRecord. destruct toBinary; [|done].
  by rewrite Hstage.
Qed.

(** *** The binary field name *)

(** C8, as the code has it. The declaration of [binaryPropertyName] marks it
    required, with default "data", and shown only when [outputToBinary] is
    true; the routine itself validates nothing. When the parameter is not
    set, the routine reads the name "data" and goes on: a single-UID request
    in binary mode whose message is found and staged returns its record, and
    every record a binary-mode call returns holds its blob under "data". *)
Theorem binary_name_falls_back_to_data context itemIndex client :
  stringParameter context "binaryPropertyName" itemIndex = None →
  (required binaryPropertyNameProperty = true
   ∧ default binaryPropertyNameProperty = StringValue "data"
   ∧ show binaryPropertyNameProperty = [("outputToBinary", [BooleanValue true])])
  ∧ getNodeParameter (stringParameter context) "binaryPropertyName" itemIndex
      (Some "data") = Return "data"
  ∧ (∀ request email src blob,
       reads context itemIndex client request →
       outputMode request = Binary →
       messageId request ≠ "" →
       fetchOne client (messageId request) query true
         = Return (FetchedMessage email) →
       source email = Some src →
       helpers_prepareBinaryData context (Some src)
         (mailboxPath request +:+ "_" +:+ messageId request +:+ ".eml")
         "message/rfc822" = Return blob →
       executeImapAction context itemIndex client
         = Return (Some [ {| json := ∅;
                             binary := Some {[ "data" := blob ]};
                             pairedItem := itemIndex |} ]))
  ∧ (∀ request rs r,
       reads context itemIndex client request →
       outputMode request = Binary →
       executeImapAction context itemIndex client = Return (Some rs) →
       r ∈ rs →
       ∃ blob, binary r = Some {[ "data" := blob ]}).
Proof.
  intros Hunset.
  assert (Hdata : getNodeParameter (stringParameter context)
                    "binaryPropertyName" itemIndex (Some "data")
                  = Return "data")
    by (unfold getNodeParameter; by rewrite Hunset).
  assert (Hname : ∀ request, reads context itemIndex client request →
                    binaryFieldName request = "data").
  { intros request (_ & _ & _ & _ & Hread).
    rewrite Hdata in Hread. by injection Hread. }
  split_and!; try done.
  - intros request email src blob Hreads Hmode Hid Hfetch Hsrc Hstage.
    rewrite (executeImapAction_single _ _ _ _ Hreads Hid).
    rewrite (downloadSingleByUid_found _ _ _ _ _ _ Hfetch Hsrc).
    unfold shapeRecord. rewrite Hmode; simpl. rewrite Hstage; simpl.
    by rewrite (Hname _ Hreads).
  - intros request rs r Hreads Hmode Hrun Hr.
    destruct (executeImapAction_Return _ _ _ _ _ Hreads Hrun)
      as (rs' & [= <-] & _ & Hall).
    destruct (Hall r Hr) as (email & _ & _ & Hpayload).
    rewrite Hmode in Hpayload.
    destruct Hpayload as (blob & _ & _ & Hbinary).
    exists blob. by rewrite <- (Hname _ Hreads).
Qed.

(** *** The original routine *)

(** C9. With a non-empty [emailUid] for which the client answers with a
    message that has a raw source, the dual-mode routine and the original
    routine have the same outcome, and what they return is a list of exactly
    one record. *)
Theorem single_path_refines_original context itemIndex client emailUid email :
  stringParameter context "emailUid" itemIndex = Some emailUid →
  emailUid ≠ "" →
  fetchOne client emailUid query true = Return (FetchedMessage email) →
  is_Some (source email) →
  executeImapAction context itemIndex client
    = executeImapAction_original context itemIndex client
  ∧ ∀ out,
      executeImapAction context itemIndex client = Return out →
      ∃ r, out = Some [r].
Proof.
  intros Huid Hne Hfetch [src Hsrc].
  assert (Hsame : executeImapAction context itemIndex client
                  = executeImapAction_original context itemIndex client).
  { assert (Hread : getNodeParameter (stringParameter context) "emailUid"
                      itemIndex None = Return emailUid)
      by (unfold getNodeParameter; by rewrite Huid).
    unfold executeImapAction, executeImapAction_original. rewrite Hread.
    clear Hread.
    destruct (getMailboxPathFromNodeParameter context itemIndex) as [path|];
      simpl; [|done].
    destruct (mailboxOpen client path true); simpl; [|done].
    destruct (getNodeParameter (booleanParameter context) _ _ _)
      as [toBinary|]; simpl; [|done].
    destruct (getNodeParameter (stringParameter context) _ _ _)
      as [fieldName|]; simpl; [|done].
    rewrite bool_decide_eq_true_2 by done.
    unfold downloadSingleByUid. rewrite Hfetch; simpl. rewrite Hsrc.
    by destruct (shapeRecord _ _ _ _ _ _ _). }
  split; [done|].
  intros out. rewrite Hsame. unfold executeImapAction_original.
  intros Hrun.
  bind_inv Hrun as path Hpath.
  bind_inv Hrun as u Hopen.
  bind_inv Hrun as uid' Huid'.
  bind_inv Hrun as toBinary Hmode.
  bind_inv Hrun as fieldName Hname.
  bind_inv Hrun as answer Hanswer.
  bind_inv Hrun as src' Hsrc'.
  bind_inv Hrun as r Hr.
  injection Hrun as <-. by exists r.
Qed.

(** *** When the bulk path succeeds, and where it stops *)

Lemma forAwait_streamEnds context itemIndex path toBinary fieldName stream
    foundAny results out :
  forAwait context itemIndex path toBinary fieldName stream foundAny results
    = Return out →
  streamEnds stream = true.
Proof.
  revert foundAny results.
  induction stream as [|e|email rest IH]; intros foundAny results; simpl.
  - done.
  - discriminate.
  - intros Hrun. bind_inv Hrun as r Hr. eauto.
Qed.

Lemma yields_streamMessages stream :
  streamEnds stream = true → stream = yields (streamMessages stream) StreamEnd.
Proof.
  induction stream as [|e|email rest IH]; simpl; intros Hends.
  - done.
  - discriminate.
  - by rewrite <- IH.
Qed.

Lemma bulkRecord_processable context request itemIndex email r :
  bulkRecord context request itemIndex email r →
  processable context request email.
Proof.
  unfold bulkRecord, carries, processable. intros [_ Hpayload].
  destruct (outputMode request).
  - destruct Hpayload as (blob & Hstage & _). eauto.
  - destruct Hpayload as (b & -> & _). eauto.
Qed.

(** X1. With an empty [emailUid] and the search criteria read, the call
    returns a list exactly when the fetch stream ends without throwing, has
    yielded at least one message, and every message it yielded can be
    shaped. *)
Theorem bulk_returns_iff context itemIndex client request searchObject :
  reads context itemIndex client request →
  messageId request = "" →
  getEmailSearchParametersFromNode context itemIndex = Return searchObject →
  (∃ rs, executeImapAction context itemIndex client = Return (Some rs))
  ↔ streamEnds (fetch client searchObject query) = true
    ∧ streamMessages (fetch client searchObject query) ≠ []
    ∧ Forall (processable context request)
        (streamMessages (fetch client searchObject query)).
Proof.
  intros Hreads Hid Hso.
  rewrite (executeImapAction_bulk _ _ _ _ _ Hreads Hid Hso).
  split.
  - intros [rs Hrun]. bind_inv Hrun as loop Hloop.
    destruct loop as [foundAny results].
    pose proof (forAwait_streamEnds _ _ _ _ _ _ _ _ _ Hloop) as Hends.
    apply forAwait_Return in Hloop as (rs' & -> & Hrs & ->).
    simpl in Hrun. case_bool_decide as Hne; [|discriminate].
    split_and!; [done| |].
    + intros Hnil. rewrite Hnil in Hrs. by apply Forall2_nil_inv_l in Hrs.
    + clear -Hrs. induction Hrs as [|email r ? ? Hr _ IH]; constructor.
      * by eapply bulkRecord_processable.
      * done.
  - intros (Hends & Hne & Hall).
    destruct (forAwait_yields context request itemIndex _ StreamEnd false []
                Hall) as (rs & _ & Hloop).
    rewrite <- (yields_streamMessages _ Hends) in Hloop.
    exists rs. rewrite Hloop; simpl. by rewrite bool_decide_eq_true_2.
Qed.

Lemma forAwait_first_failure context request itemIndex emails email rest e
    foundAny results :
  Forall (processable context request) emails →
  shapeRecord context itemIndex (mailboxPath request)
    (outputToBinaryOf (outputMode request)) (binaryFieldName request)
    (source email) (Number_toString (uid email)) = Throw e →
  forAwait context itemIndex (mailboxPath request)
    (outputToBinaryOf (outputMode request)) (binaryFieldName request)
    (yields emails (StreamYield email rest)) foundAny results
  = Throw e.
Proof.
  intros Hall Hshape.
  destruct (forAwait_yields context request itemIndex emails
              (StreamYield email rest) foundAny results Hall)
    as (rs & _ & ->).
  simpl. by rewrite Hshape.
Qed.

(** X2. On the bulk path in binary mode, when the staging helper rejects a
    message with [e] after the messages before it were staged, the call
    throws [e], whatever the stream would have delivered next: the records
    made so far are dropped and no later message is looked at. *)
Theorem bulk_staging_failure_stops_the_call context itemIndex client request
    searchObject emails email rest e :
  reads context itemIndex client request →
  messageId request = "" →
  outputMode request = Binary →
  getEmailSearchParametersFromNode context itemIndex = Return searchObject →
  fetch client searchObject query = yields emails (StreamYield email rest) →
  Forall (processable context request) emails →
  helpers_prepareBinaryData context (source email)
    (mailboxPath request +:+ "_" +:+ Number_toString (uid email) +:+ ".eml")
    "message/rfc822" = Throw e →
  executeImapAction context itemIndex client = Throw e.
Proof.
  intros Hreads Hid Hmode Hso Hfetch Hall Hstage.
  rewrite (executeImapAction_bulk _ _ _ _ _ Hreads Hid Hso), Hfetch.
  rewrite (forAwait_first_failure _ _ _ _ _ _ e); [done|done|].
  unfold shapeRecord. rewrite Hmode; simpl. by rewrite Hstage.
Qed.

(** X3. On the bulk path in text mode, a message without raw source ends the
    call with the runtime's TypeError on [email.source.toString()], whatever
    came before it and whatever would come after it: the bulk branch has no
    guard for it, and the error is not the not-found error. *)
Theorem bulk_text_needs_every_source context itemIndex client request
    searchObject emails email rest :
  reads context itemIndex client request →
  messageId request = "" →
  outputMode request = Text →
  getEmailSearchParametersFromNode context itemIndex = Return searchObject →
  fetch client searchObject query = yields emails (StreamYield email rest) →
  Forall (processable context request) emails →
  source email = None →
  executeImapAction context itemIndex client
    = Throw (TypeError
               "Cannot read properties of undefined (reading 'toString')")
  ∧ ¬ NotFoundError
        (TypeError "Cannot read properties of undefined (reading 'toString')").
Proof.
  intros Hreads Hid Hmode Hso Hfetch Hall Hsrc. split.
  - rewrite (executeImapAction_bulk _ _ _ _ _ Hreads Hid Hso), Hfetch.
    rewrite (forAwait_first_failure _ _ _ _ _ _
               (TypeError
                  "Cannot read properties of undefined (reading 'toString')"));
      [done|done|].
    unfold shapeRecord. rewrite Hmode; simpl. by rewrite Hsrc.
  - by intros [?|?].
Qed.

(** *** The file names of the bulk path *)

Lemma occurs_app a s t : occurs a (s +:+ t) ↔ occurs a s ∨ occurs a t.
Proof. induction s as [|b s IH]; simpl; [tauto | rewrite IH; tauto]. Qed.

Lemma string_length_app s t :
  String.length (s +:+ t) = String.length s + String.length t.
Proof. induction s as [|b s IH]; simpl; [done | by rewrite IH]. Qed.

Lemma string_app_inj_r s t u : s +:+ u = t +:+ u → s = t.
Proof.
  revert t. induction s as [|a s IH]; intros [|b t] Heq; simpl in Heq.
  - done.
  - apply (f_equal String.length) in Heq. simpl in Heq.
    rewrite !string_length_app in Heq. simpl in Heq. lia.
  - apply (f_equal String.length) in Heq. simpl in Heq.
    rewrite !string_length_app in Heq. simpl in Heq. lia.
  - injection Heq as -> Heq. f_equal. by apply IH.
Qed.

Lemma pretty_N_go_no_underscore x s :
  ¬ occurs "_"%char s → ¬ occurs "_"%char (pretty_N_go x s).
Proof.
  revert s. induction (N.lt_wf_0 x) as [x _ IH]; intros s Hs.
  assert (x = 0 ∨ 0 < x)%N as [->|Hpos] by lia.
  - by rewrite pretty_N_go_0.
  - rewrite pretty_N_go_step by done. apply IH.
    { by apply N.div_lt. }
    simpl. intros [Hchar|Hrest]; [|done].
    unfold pretty_N_char in Hchar. by repeat case_match.
Qed.

Lemma Number_toString_no_underscore n : ¬ occurs "_"%char (Number_toString n).
Proof.
  unfold Number_toString, pretty, pretty_N. case_decide.
  - simpl. by intros [?|?].
  - apply pretty_N_go_no_underscore. simpl. tauto.
Qed.

Lemma split_at_last_underscore p1 p2 d1 d2 :
  ¬ occurs "_"%char d1 → ¬ occurs "_"%char d2 →
  p1 +:+ "_" +:+ d1 = p2 +:+ "_" +:+ d2 →
  p1 = p2 ∧ d1 = d2.
Proof.
  intros Hd1 Hd2. revert p2.
  induction p1 as [|a p1 IH]; intros [|b p2] Heq; simpl in Heq.
  - by injection Heq.
  - injection Heq as _ Hd. change (d1 = p2 +:+ "_" +:+ d2) in Hd.
    destruct Hd1. rewrite Hd. apply occurs_app. right. by left.
  - injection Heq as _ Hd. change (p1 +:+ "_" +:+ d1 = d2) in Hd.
    destruct Hd2. rewrite <- Hd. apply occurs_app. right. by left.
  - injection Heq as -> Heq. destruct (IH _ Heq) as [-> ->]. done.
Qed.

(** X4. The file name of the bulk path determines the mailbox path and the
    UID: two fetched messages get the same file name only if they are in
    mailboxes of the same path and have the same UID. *)
Theorem bulkFileName_inj path1 path2 n1 n2 :
  bulkFileName path1 n1 = bulkFileName path2 n2 → path1 = path2 ∧ n1 = n2.
Proof.
  unfold bulkFileName. intros Heq.
  assert (Hext : ∀ n, ¬ occurs "_"%char (Number_toString n +:+ ".eml")).
  { intros n [Hn|Hext]%occurs_app.
    - by apply (Number_toString_no_underscore n).
    - destruct Hext as [?|[?|[?|[?|[]]]]]; discriminate. }
  destruct (split_at_last_underscore _ _ _ _ (Hext n1) (Hext n2) Heq)
    as [-> Hn].
  split; [done|].
  apply string_app_inj_r in Hn. by apply (inj pretty).
Qed.

(** The staging call of the bulk branch is made with [bulkFileName]. *)
Lemma processable_bulkFileName context request email :
  outputMode request = Binary →
  processable context request email
  ↔ ∃ blob,
      helpers_prepareBinaryData context (source email)
        (bulkFileName (mailboxPath request) (uid email)) "message/rfc822"
      = Return blob.
Proof. unfold processable, bulkFileName. by intros ->. Qed.

(** *** The original routine without a message *)

Lemma executeImapAction_original_reads context itemIndex client request :
  reads context itemIndex client request →
  executeImapAction_original context itemIndex client =
    (emailInfo ← fetchOne client (messageId request) query true;
     src ← emailInfo_source emailInfo;
     newItem ← shapeRecord context itemIndex (mailboxPath request)
                 (outputToBinaryOf (outputMode request))
                 (binaryFieldName request) src (messageId request);
     mret (Some [newItem])).
Proof.
  intros (Hpath & Hopen & Huid & Hmode & Hname).
  unfold executeImapAction_original.
  rewrite Hpath; simpl. rewrite Hopen; simpl. rewrite Huid; simpl.
  rewrite Hmode; simpl. rewrite Hname; simpl. reflexivity.
Qed.

(** X5. The original routine has no not-found guard. When the client answers
    [undefined] it throws the TypeError of reading [source]; when the client
    answers [false], or a message without raw source, it throws the TypeError
    of [toString] in text mode, and in binary mode it hands [undefined] to
    the staging helper and returns the record of whatever the helper makes
    of it (or throws what the helper throws). *)
Theorem original_without_raw_content context itemIndex client request answer :
  reads context itemIndex client request →
  fetchOne client (messageId request) query true = Return answer →
  noRawContent answer →
  (answer = FetchedUndefined →
   executeImapAction_original context itemIndex client
   = Throw (TypeError "Cannot read properties of undefined (reading 'source')"))
  ∧ (answer ≠ FetchedUndefined →
     outputMode request = Text →
     executeImapAction_original context itemIndex client
     = Throw (TypeError
                "Cannot read properties of undefined (reading 'toString')"))
  ∧ (answer ≠ FetchedUndefined →
     outputMode request = Binary →
     executeImapAction_original context itemIndex client
     = (blob ← helpers_prepareBinaryData context None
                 (mailboxPath request +:+ "_" +:+ messageId request +:+ ".eml")
                 "message/rfc822";
        mret (Some [ {| json := ∅;
                        binary := Some {[ binaryFieldName request := blob ]};
                        pairedItem := itemIndex |} ]))).
Proof.
  intros Hreads Hfetch Hno.
  rewrite (executeImapAction_original_reads _ _ _ _ Hreads), Hfetch.
  split_and!.
  - by intros ->.
  - intros Hdef Hmode.
    destruct answer as [email| |]; simpl in *; [by rewrite Hno, Hmode | by rewrite Hmode | done].
  - intros Hdef Hmode. unfold shapeRecord.
    destruct answer as [email| |]; simpl in *; [rewrite Hno | | done];
      rewrite Hmode; simpl;
      by destruct (helpers_prepareBinaryData _ _ _ _).
Qed.

(** *** Parameters that are not set *)

(** X6. When [outputToBinary] is not set the routine works in binary mode:
    the request it reads has binary output, and every record it returns has
    an empty JSON map and one blob under the binary field name. *)
Theorem unset_outputToBinary_means_binary context itemIndex client :
  booleanParameter context "outputToBinary" itemIndex = None →
  (∀ request,
     reads context itemIndex client request → outputMode request = Binary)
  ∧ (∀ request rs r,
       reads context itemIndex client request →
       executeImapAction context itemIndex client = Return (Some rs) →
       r ∈ rs →
       json r = ∅
       ∧ ∃ blob, binary r = Some {[ binaryFieldName request := blob ]}).
Proof.
  intros Hunset.
  assert (Hbinary : ∀ request, reads context itemIndex client request →
                      outputMode request = Binary).
  { intros request (_ & _ & _ & Hmode & _).
    unfold getNodeParameter in Hmode. rewrite Hunset in Hmode.
    by destruct (outputMode request). }
  split; [done|].
  intros request rs r Hreads Hrun Hr.
  destruct (executeImapAction_Return _ _ _ _ _ Hreads Hrun)
    as (rs' & [= <-] & _ & Hall).
  destruct (Hall r Hr) as (email & _ & _ & Hpayload).
  rewrite (Hbinary _ Hreads) in Hpayload.
  destruct Hpayload as (blob & _ & Hjson & Hblob). eauto.
Qed.

(** *** What the outcome depends on *)

Lemma shapeRecord_ext context1 context2 itemIndex path toBinary fieldName src
    uidText :
  (toBinary = true → sameStaging context1 context2) →
  shapeRecord context1 itemIndex path toBinary fieldName src uidText
  = shapeRecord context2 itemIndex path toBinary fieldName src uidText.
Proof.
  intros Hstage. unfold shapeRecord. destruct toBinary; [|done].
  by rewrite (Hstage eq_refl).
Qed.

Lemma forAwait_ext context1 context2 itemIndex path toBinary fieldName stream
    foundAny results :
  (toBinary = true → sameStaging context1 context2) →
  forAwait context1 itemIndex path toBinary fieldName stream foundAny results
  = forAwait context2 itemIndex path toBinary fieldName stream foundAny results.
Proof.
  intros Hstage. revert foundAny results.
  induction stream as [|e|email rest IH]; intros foundAny results; simpl;
    [done | done |].
  rewrite (shapeRecord_ext context1 context2) by done.
  destruct (shapeRecord context2 _ _ _ _ _ _); simpl; [apply IH | done].
Qed.

Lemma executeImapAction_ext context1 context2 itemIndex client :
  sameReads context1 context2 itemIndex →
  (booleanParameter context2 "outputToBinary" itemIndex ≠ Some false →
   sameStaging context1 context2) →
  executeImapAction context1 itemIndex client
  = executeImapAction context2 itemIndex client.
Proof.
  intros (Hpath & Hsearch & Huid & Hmode & Hname) Hstage.
  unfold executeImapAction, getNodeParameter.
  rewrite Hpath, Huid, Hmode, Hname.
  destruct (getMailboxPathFromNodeParameter context2 itemIndex) as [path|];
    simpl; [|done].
  destruct (mailboxOpen client path true); simpl; [|done].
  destruct (stringParameter context2 "emailUid" itemIndex) as [emailUid|];
    simpl; [|done].
  assert (Hshape : ∀ toBinary,
            match booleanParameter context2 "outputToBinary" itemIndex with
            | Some v => Return v | None => Return true end = Return toBinary →
            toBinary = true → sameStaging context1 context2).
  { intros toBinary Hread ->. apply Hstage.
    destruct (booleanParameter context2 _ _) as [[]|]; by simplify_eq. }
  destruct (match booleanParameter context2 "outputToBinary" itemIndex with
            | Some v => Return v | None => Return true end)
    as [toBinary|] eqn:Hread; simpl; [|done].
  specialize (Hshape toBinary eq_refl).
  destruct (match stringParameter context2 "binaryPropertyName" itemIndex with
            | Some v => Return v | None => Return "data" end)
    as [fieldName|]; simpl; [|done].
  case_bool_decide.
  - unfold downloadSingleByUid.
    destruct (fetchOne client emailUid query true) as [[email| |]|]; simpl;
      try done.
    destruct (source email) as [src|]; [|done].
    by rewrite (shapeRecord_ext context1 context2).
  - unfold downloadAllMatching. rewrite Hsearch.
    destruct (getEmailSearchParametersFromNode context2 itemIndex)
      as [searchObject|]; simpl; [|done].
    by rewrite (forAwait_ext context1 context2).
Qed.

(** X7. The outcome depends on the node only through the mailbox path, the
    search criteria, [emailUid], [outputToBinary], [binaryPropertyName] and
    the staging helper: two contexts that agree on these give the same
    outcome against the same client, whatever their other parameters
    (such as the declared [includeAllHeaders] and [headersToInclude]) are. *)
Theorem outcome_depends_only_on_what_is_read context1 context2 itemIndex
    client :
  sameReads context1 context2 itemIndex →
  sameStaging context1 context2 →
  executeImapAction context1 itemIndex client
  = executeImapAction context2 itemIndex client.
Proof. intros Hreads Hstage. by apply executeImapAction_ext. Qed.

(** X8. In text mode the staging helper is never used: two contexts that
    agree on what is read from the node, with [outputToBinary] false, give
    the same outcome whatever their staging helpers do. *)
Theorem text_mode_never_stages context1 context2 itemIndex client :
  sameReads context1 context2 itemIndex →
  booleanParameter context2 "outputToBinary" itemIndex = Some false →
  executeImapAction context1 itemIndex client
  = executeImapAction context2 itemIndex client.
Proof. intros Hreads Hmode. by apply executeImapAction_ext. Qed.

(** X9. Each mode asks the client for one thing only. With a non-empty
    [emailUid] the outcome depends on the client through [mailboxOpen] and
    the answer of [fetchOne] for that identifier, and not on [fetch]; with an
    empty [emailUid] it depends on [mailboxOpen] and [fetch], and not on
    [fetchOne]. *)
Theorem each_mode_uses_one_fetch_operation context itemIndex client1 client2
    emailUid :
  stringParameter context "emailUid" itemIndex = Some emailUid →
  (∀ path readOnly,
     mailboxOpen client1 path readOnly = mailboxOpen client2 path readOnly) →
  (if bool_decide (emailUid ≠ "") then
     fetchOne client1 emailUid query true = fetchOne client2 emailUid query true
   else
     ∀ searchObject,
       fetch client1 searchObject query = fetch client2 searchObject query) →
  executeImapAction context itemIndex client1
  = executeImapAction context itemIndex client2.
Proof.
  intros Huid Hopen Hfetch.
  assert (Hread : getNodeParameter (stringParameter context) "emailUid"
                    itemIndex None = Return emailUid)
    by (unfold getNodeParameter; by rewrite Huid).
  unfold executeImapAction. rewrite Hread. clear Hread.
  destruct (getMailboxPathFromNodeParameter context itemIndex) as [path|];
    simpl; [|done].
  rewrite Hopen.
  destruct (mailboxOpen client2 path true); simpl; [|done].
  destruct (getNodeParameter (booleanParameter context) _ _ _)
    as [toBinary|]; simpl; [|done].
  destruct (getNodeParameter (stringParameter context) _ _ _)
    as [fieldName|]; simpl; [|done].
  case_bool_decide.
  - unfold downloadSingleByUid. by rewrite Hfetch.
  - unfold downloadAllMatching.
    destruct (getEmailSearchParametersFromNode context itemIndex)
      as [searchObject|]; simpl; [|done].
    by rewrite Hfetch.
Qed.

(** *** Failures before the branch *)

(** X10. A mailbox that cannot be opened ends both routines with the client's
    error, whatever the parameters and the fetch answers are: the mailbox is
    opened before any parameter is read. *)
Theorem mailbox_open_failure_comes_first context itemIndex client path e :
  getMailboxPathFromNodeParameter context itemIndex = Return path →
  mailboxOpen client path true = Throw e →
  executeImapAction context itemIndex client = Throw e
  ∧ executeImapAction_original context itemIndex client = Throw e.
Proof.
  intros Hpath Hopen.
  unfold executeImapAction, executeImapAction_original.
  rewrite Hpath; simpl. by rewrite Hopen.
Qed.

(** X11. On the single-UID path the UID of the message the client returns
    is never looked at: two clients that answer the request with messages of
    the same raw source give the same outcome, whatever the UIDs of the two
    messages are. *)
Theorem single_path_ignores_returned_uid context itemIndex client1 client2
    emailUid email1 email2 :
  stringParameter context "emailUid" itemIndex = Some emailUid →
  emailUid ≠ "" →
  (∀ path readOnly,
     mailboxOpen client1 path readOnly = mailboxOpen client2 path readOnly) →
  fetchOne client1 emailUid query true = Return (FetchedMessage email1) →
  fetchOne client2 emailUid query true = Return (FetchedMessage email2) →
  source email1 = source email2 →
  executeImapAction context itemIndex client1
  = executeImapAction context itemIndex client2.
Proof.
  intros Huid Hne Hopen Hfetch1 Hfetch2 Hsrc.
  assert (Hread : getNodeParameter (stringParameter context) "emailUid"
                    itemIndex None = Return emailUid)
    by (unfold getNodeParameter; by rewrite Huid).
  unfold executeImapAction. rewrite Hread. clear Hread.
  destruct (getMailboxPathFromNodeParameter context itemIndex) as [path|];
    simpl; [|done].
  rewrite Hopen.
  destruct (mailboxOpen client2 path true); simpl; [|done].
  destruct (getNodeParameter (booleanParameter context) _ _ _)
    as [toBinary|]; simpl; [|done].
  destruct (getNodeParameter (stringParameter context) _ _ _)
    as [fieldName|]; simpl; [|done].
  rewrite bool_decide_eq_true_2 by done.
  unfold downloadSingleByUid. rewrite Hfetch1, Hfetch2; simpl.
  by rewrite Hsrc.
Qed.

End Properties.

(** * The properties on the concrete host and client *)

(** The three scenarios of the design description. *)

Example scenario_binary_42 :
  run (sampleContext "42" (Some true) (Some "data")) 0 (sampleClient StreamEnd)
  = Return (Some [binaryItem "data" (stagedAs "Subject: b" "INBOX_42.eml") 0]).
Proof. vm_compute. reflexivity. Qed.

Example scenario_text_5_9 :
  run (sampleContext "" (Some false) (Some "data")) 0 (sampleClient twoMatches)
  = Return (Some [textItem "Subject: a" 0; textItem "Subject: c" 0]).
Proof. vm_compute. reflexivity. Qed.

Example scenario_no_match :
  run (sampleContext "" (Some false) (Some "data")) 0 (sampleClient StreamEnd)
  = Throw NoEmailsMatching.
Proof. vm_compute. reflexivity. Qed.

(** The bulk loop stops at the first message it cannot shape: in text mode a
    message without raw source ends the call with the runtime's error. *)
Example bulk_text_without_source :
  run (sampleContext "" (Some false) (Some "data")) 0
    (sampleClient (yields [message 5 "Subject: a";
                           {| uid := 7; source := None |}] StreamEnd))
  = Throw (TypeError "Cannot read properties of undefined (reading 'toString')").
Proof. vm_compute. reflexivity. Qed.



(** C2 on message 7, which the client delivers without raw source. *)
Lemma single_uid_one_record_or_not_found_witness :
  run (sampleContext "7" (Some true) (Some "data")) 0 (sampleClient StreamEnd)
    = Throw NoEmailWithUid
  ∧ NotFoundError NoEmailWithUid.
Proof.
  refine (proj1 (proj2 (proj2
    (@single_uid_one_record_or_not_found sampleExternals sampleUtils
       (sampleContext "7" (Some true) (Some "data")) 0 (sampleClient StreamEnd)
       (sampleRequest "7" Binary "data") _ _)))
    (FetchedMessage {| uid := 7; source := None |}) _ _).
  - by repeat split.
  - discriminate.
  - reflexivity.
  - reflexivity.
Defined.

(** C3 on the empty stream. *)
Lemma bulk_no_match_is_an_error_witness :
  run (sampleContext "" (Some true) (Some "data")) 0 (sampleClient StreamEnd)
    = Throw NoEmailsMatching
  ∧ NotFoundError NoEmailsMatching.
Proof.
  apply (@bulk_no_match_is_an_error sampleExternals sampleUtils
           (sampleContext "" (Some true) (Some "data")) 0
           (sampleClient StreamEnd) (sampleRequest "" Binary "data") ["ALL"]).
  - by repeat split.
  - reflexivity.
  - reflexivity.
  - reflexivity.
Defined.

(** C7 on the stream that breaks after its first message. *)
Lemma bulk_error_discards_records_witness :
  run (sampleContext "" (Some true) (Some "data")) 0 (sampleClient brokenAfterOne)
    = Throw (ExternalError "Error" "Connection closed").
Proof.
  apply (@bulk_error_discards_records sampleExternals sampleUtils
           (sampleContext "" (Some true) (Some "data")) 0
           (sampleClient brokenAfterOne) (sampleRequest "" Binary "data")
           ["ALL"] [message 5 "Subject: a"]).
  - by repeat split.
  - reflexivity.
  - reflexivity.
  - reflexivity.
  - repeat constructor. by eexists.
Defined.

(** C4 on the second record of the two-message stream, in text mode. *)
Lemma one_payload_area_per_mode_witness :
  binary (textItem "Subject: c" 3) = None
  ∧ ∃ email b,
      @delivered sampleExternals sampleUtils
        (sampleContext "" (Some false) (Some "data")) 3
        (sampleClient twoMatches) (sampleRequest "" Text "data") email
      ∧ source email = Some b
      ∧ json (textItem "Subject: c" 3)
        = {[ "emlContent" := String.string_of_list_byte b ]}.
Proof.
  apply (@one_payload_area_per_mode sampleExternals sampleUtils
           (sampleContext "" (Some false) (Some "data")) 3
           (sampleClient twoMatches) (sampleRequest "" Text "data")
           [textItem "Subject: a" 3; textItem "Subject: c" 3]
           (textItem "Subject: c" 3)).
  - by repeat split.
  - vm_compute. reflexivity.
  - apply list_elem_of_further, list_elem_of_here.
Defined.

(** C5 as written fails on the single-UID path: asked for the latest message
    with "*", the client delivers message 57, and the blob is staged as
    INBOX_*.eml, not as INBOX_57.eml. *)
Lemma filename_from_message_uid_counterexample :
  ¬ @filename_from_message_uid sampleExternals sampleUtils
      (sampleContext "*" (Some true) (Some "data")) 0 (sampleClient StreamEnd).
Proof.
  intros Hclaim.
  destruct (Hclaim (sampleRequest "*" Binary "data")
              [binaryItem "data" (stagedAs "Subject: z" "INBOX_*.eml") 0]
              (binaryItem "data" (stagedAs "Subject: z" "INBOX_*.eml") 0)
              (stagedAs "Subject: z" "INBOX_*.eml"))
    as (email & Hdelivered & Hstaged).
  - by repeat split.
  - reflexivity.
  - vm_compute. reflexivity.
  - apply list_elem_of_here.
  - by split.
  - vm_compute in Hdelivered. injection Hdelivered as <-.
    vm_compute in Hstaged. discriminate.
Qed.

(** C5 as the code has it, on the same invocation. *)
Lemma binary_filename_per_path_witness :
  ∃ (email : FetchMessageObject) (blob : StagedBlob),
    @delivered sampleExternals sampleUtils
      (sampleContext "*" (Some true) (Some "data")) 0 (sampleClient StreamEnd)
      (sampleRequest "*" Binary "data") email
    ∧ stage (source email) ("INBOX" +:+ "_" +:+ "*" +:+ ".eml") "message/rfc822"
      = Return blob
    ∧ binary (binaryItem "data" (stagedAs "Subject: z" "INBOX_*.eml") 0)
      = Some {[ "data" := blob ]}.
Proof.
  apply (@binary_filename_per_path sampleExternals sampleUtils
           (sampleContext "*" (Some true) (Some "data")) 0
           (sampleClient StreamEnd) (sampleRequest "*" Binary "data")
           [binaryItem "data" (stagedAs "Subject: z" "INBOX_*.eml") 0]
           (binaryItem "data" (stagedAs "Subject: z" "INBOX_*.eml") 0)).
  - by repeat split.
  - reflexivity.
  - vm_compute. reflexivity.
  - apply list_elem_of_here.
Defined.

(** C6 on two nodes that differ in their subject criterion. *)
Lemma search_criteria_ignored_with_uid_witness :
  run (sampleContext "42" (Some false) (Some "data")) 0 (sampleClient twoMatches)
  = run (withSubject "invoice" (sampleContext "42" (Some false) (Some "data")))
      0 (sampleClient twoMatches).
Proof.
  apply (@search_criteria_ignored_with_uid sampleExternals sampleUtils
           (sampleContext "42" (Some false) (Some "data"))
           (withSubject "invoice" (sampleContext "42" (Some false) (Some "data")))
           0 (sampleClient twoMatches) "42").
  - reflexivity.
  - reflexivity.
  - reflexivity.
  - discriminate.
  - reflexivity.
  - reflexivity.
  - reflexivity.
Defined.

(** C8 as written fails: in binary mode without a binary field name the call
    is not rejected, it returns the record. *)
Lemma rejects_missing_binary_name_counterexample :
  ¬ @rejects_missing_binary_name sampleExternals sampleUtils
      (sampleContext "42" (Some true) None) 0 (sampleClient StreamEnd).
Proof.
  intros Hclaim.
  destruct Hclaim as [e Hthrow]; [reflexivity | reflexivity |].
  vm_compute in Hthrow. discriminate.
Qed.

(** C8 as the code has it, on the same invocation. *)
Lemma binary_name_falls_back_to_data_witness :
  run (sampleContext "42" (Some true) None) 0 (sampleClient StreamEnd)
  = Return (Some [binaryItem "data" (stagedAs "Subject: b" "INBOX_42.eml") 0]).
Proof.
  refine (proj1 (proj2 (proj2
    (@binary_name_falls_back_to_data sampleExternals sampleUtils
       (sampleContext "42" (Some true) None) 0 (sampleClient StreamEnd) _)))
    (sampleRequest "42" Binary "data") (message 42 "Subject: b")
    (String.list_byte_of_string "Subject: b")
    (stagedAs "Subject: b" "INBOX_42.eml") _ _ _ _ _ _).
  - reflexivity.
  - by repeat split.
  - reflexivity.
  - discriminate.
  - reflexivity.
  - reflexivity.
  - reflexivity.
Defined.

(** C9 on message 42, in text mode. *)
Lemma single_path_refines_original_witness :
  run (sampleContext "42" (Some false) (Some "data")) 0 (sampleClient StreamEnd)
    = run_original (sampleContext "42" (Some false) (Some "data")) 0
        (sampleClient StreamEnd)
  ∧ ∀ out,
      run (sampleContext "42" (Some false) (Some "data")) 0
        (sampleClient StreamEnd) = Return out →
      ∃ r, out = Some [r].
Proof.
  apply (@single_path_refines_original sampleExternals sampleUtils
           (sampleContext "42" (Some false) (Some "data")) 0
           (sampleClient StreamEnd) "42" (message 42 "Subject: b")).
  - reflexivity.
  - discriminate.
  - reflexivity.
  - by eexists.
Defined.

(** * The further properties on the concrete host and client *)

(** X1 on the two-message stream. *)
Lemma bulk_returns_iff_witness :
  (∃ rs,
     run (sampleContext "" (Some false) (Some "data")) 0
       (sampleClient twoMatches) = Return (Some rs))
  ↔ streamEnds twoMatches = true
    ∧ streamMessages twoMatches ≠ []
    ∧ Forall (processable (sampleContext "" (Some false) (Some "data"))
                (sampleRequest "" Text "data"))
        (streamMessages twoMatches).
Proof.
  apply (@bulk_returns_iff sampleExternals sampleUtils
           (sampleContext "" (Some false) (Some "data")) 0
           (sampleClient twoMatches) (sampleRequest "" Text "data") ["ALL"]).
  - by repeat split.
  - reflexivity.
  - reflexivity.
Defined.

(** X2 on a host that cannot stage the second of three messages. *)
Lemma bulk_staging_failure_stops_the_call_witness :
  run (sampleContextExcept "INBOX_9.eml") 0
    (sampleClient (yields [message 5 "Subject: a"; message 9 "Subject: c";
                           message 42 "Subject: b"] StreamEnd))
  = Throw (ExternalError "Error" "ENOSPC").
Proof.
  apply (@bulk_staging_failure_stops_the_call sampleExternals sampleUtils
           (sampleContextExcept "INBOX_9.eml") 0
           (sampleClient (yields [message 5 "Subject: a"; message 9 "Subject: c";
                                  message 42 "Subject: b"] StreamEnd))
           (sampleRequest "" Binary "data") ["ALL"]
           [message 5 "Subject: a"] (message 9 "Subject: c")
           (yields [message 42 "Subject: b"] StreamEnd)).
  - by repeat split.
  - reflexivity.
  - reflexivity.
  - reflexivity.
  - reflexivity.
  - repeat constructor. by eexists.
  - reflexivity.
Defined.

(** X3 on a stream whose second message has no raw source. *)
Lemma bulk_text_needs_every_source_witness :
  run (sampleContext "" (Some false) (Some "data")) 0
    (sampleClient (yields [message 5 "Subject: a";
                           {| uid := 7; source := None |};
                           message 9 "Subject: c"] StreamEnd))
  = Throw (TypeError "Cannot read properties of undefined (reading 'toString')")
  ∧ ¬ NotFoundError
        (TypeError "Cannot read properties of undefined (reading 'toString')").
Proof.
  apply (@bulk_text_needs_every_source sampleExternals sampleUtils
           (sampleContext "" (Some false) (Some "data")) 0
           (sampleClient (yields [message 5 "Subject: a";
                                  {| uid := 7; source := None |};
                                  message 9 "Subject: c"] StreamEnd))
           (sampleRequest "" Text "data") ["ALL"]
           [message 5 "Subject: a"] {| uid := 7; source := None |}
           (yields [message 9 "Subject: c"] StreamEnd)).
  - by repeat split.
  - reflexivity.
  - reflexivity.
  - reflexivity.
  - reflexivity.
  - repeat constructor. by eexists.
  - reflexivity.
Defined.

(** X4 on INBOX_5.eml. *)
Lemma bulkFileName_inj_witness : "INBOX" = "INBOX" ∧ 5%N = 5%N.
Proof. apply (bulkFileName_inj "INBOX" "INBOX" 5 5). reflexivity. Defined.

(** X5 on a client that answers [false], in binary mode. *)
Lemma original_without_raw_content_witness :
  run_original (sampleContext "42" (Some true) (Some "data")) 0
    (answeringClient FetchedFalse)
  = Return (Some [binaryItem "data"
                    {| blob_data := None;
                       blob_fileName := "INBOX_42.eml";
                       blob_mimeType := "message/rfc822" |} 0]).
Proof.
  refine (proj2 (proj2
    (@original_without_raw_content sampleExternals sampleUtils
       (sampleContext "42" (Some true) (Some "data")) 0
       (answeringClient FetchedFalse) (sampleRequest "42" Binary "data")
       FetchedFalse _ _ _)) _ _).
  - by repeat split.
  - reflexivity.
  - exact I.
  - discriminate.
  - reflexivity.
Defined.

(** X6 on a node without [outputToBinary]. *)
Lemma unset_outputToBinary_means_binary_witness :
  json (binaryItem "data" (stagedAs "Subject: b" "INBOX_42.eml") 0) = ∅
  ∧ ∃ blob,
      binary (binaryItem "data" (stagedAs "Subject: b" "INBOX_42.eml") 0)
      = Some {[ "data" := blob ]}.
Proof.
  refine (proj2
    (@unset_outputToBinary_means_binary sampleExternals sampleUtils
       (sampleContext "42" None (Some "data")) 0 (sampleClient StreamEnd) _)
    (sampleRequest "42" Binary "data")
    [binaryItem "data" (stagedAs "Subject: b" "INBOX_42.eml") 0]
    (binaryItem "data" (stagedAs "Subject: b" "INBOX_42.eml") 0) _ _ _).
  - reflexivity.
  - by repeat split.
  - vm_compute. reflexivity.
  - apply list_elem_of_here.
Defined.

(** X7 on two nodes that differ in [headersToInclude]. *)
Lemma outcome_depends_only_on_what_is_read_witness :
  run (sampleContext "" (Some true) (Some "data")) 0 (sampleClient twoMatches)
  = run (withStringParameter "headersToInclude" "received"
           (sampleContext "" (Some true) (Some "data")))
      0 (sampleClient twoMatches).
Proof.
  apply (@outcome_depends_only_on_what_is_read sampleExternals sampleUtils).
  - by repeat split.
  - by intros ???.
Defined.

(** X8 on a host whose staging helper always rejects. *)
Lemma text_mode_never_stages_witness :
  run (sampleContext "" (Some false) (Some "data")) 0 (sampleClient twoMatches)
  = run (withBrokenStaging (sampleContext "" (Some false) (Some "data")))
      0 (sampleClient twoMatches).
Proof.
  apply (@text_mode_never_stages sampleExternals sampleUtils).
  - by repeat split.
  - reflexivity.
Defined.

(** X9 on a client whose [fetchOne] always throws, in bulk mode. *)
Lemma each_mode_uses_one_fetch_operation_witness :
  run (sampleContext "" (Some true) (Some "data")) 0 (sampleClient twoMatches)
  = run (sampleContext "" (Some true) (Some "data")) 0
      (withFetchOne (λ _ _ _, Throw (ExternalError "Error" "Connection closed"))
         (sampleClient twoMatches)).
Proof.
  apply (@each_mode_uses_one_fetch_operation sampleExternals sampleUtils
           (sampleContext "" (Some true) (Some "data")) 0
           (sampleClient twoMatches)
           (withFetchOne
              (λ _ _ _, Throw (ExternalError "Error" "Connection closed"))
              (sampleClient twoMatches)) "").
  - reflexivity.
  - reflexivity.
  - vm_compute. reflexivity.
Defined.

(** X10 on a client that cannot open the mailbox. *)
Lemma mailbox_open_failure_comes_first_witness :
  run (sampleContext "42" (Some true) (Some "data")) 0 closedClient
    = Throw (ExternalError "Error" "Mailbox doesn't exist")
  ∧ run_original (sampleContext "42" (Some true) (Some "data")) 0 closedClient
    = Throw (ExternalError "Error" "Mailbox doesn't exist").
Proof.
  apply (@mailbox_open_failure_comes_first sampleExternals sampleUtils
           (sampleContext "42" (Some true) (Some "data")) 0 closedClient
           "INBOX").
  - reflexivity.
  - reflexivity.
Defined.

(** X11 on two clients that answer with messages 42 and 57 of the same
    source. *)
Lemma single_path_ignores_returned_uid_witness :
  run (sampleContext "42" (Some true) (Some "data")) 0
    (answeringClient (FetchedMessage (message 42 "Subject: b")))
  = run (sampleContext "42" (Some true) (Some "data")) 0
      (answeringClient (FetchedMessage (message 57 "Subject: b"))).
Proof.
  apply (@single_path_ignores_returned_uid sampleExternals sampleUtils
           (sampleContext "42" (Some true) (Some "data")) 0
           (answeringClient (FetchedMessage (message 42 "Subject: b")))
           (answeringClient (FetchedMessage (message 57 "Subject: b")))
           "42" (message 42 "Subject: b") (message 57 "Subject: b")).
  - reflexivity.
  - discriminate.
  - reflexivity.
  - reflexivity.
  - reflexivity.
  - reflexivity.
Defined.
